(** * A shallow embedding of [main.go]

    The program opens a GLFW window, compiles and links two shader stages,
    and redraws a grid of cells until the window is closed.  Every statement
    of the Go source that talks to GLFW, OpenGL, the clock or the logger is
    an _event_; a run of the program is the list of events it performs
    together with the way it ends.  What the libraries answer is not decided
    by the program, so the answers are taken from a [Driver]. *)

From Stdlib Require Import ZArith List String Ascii Bool Lia QArith Reals.
Import ListNotations.
Local Open Scope Z_scope.
Local Open Scope list_scope.

(* ================================================================== *)
(** ** Constants *)
(* ================================================================== *)

Module gl.
(** Enumerants of the OpenGL 4.1 core binding used by the program. *)
Definition FALSE : Z := 0.
Definition LINE_LOOP : Z := 0x0002.
Definition DEPTH_BUFFER_BIT : Z := 0x00000100.
Definition COLOR_BUFFER_BIT : Z := 0x00004000.
Definition FLOAT : Z := 0x1406.
Definition VERSION : Z := 0x1F02.
Definition ARRAY_BUFFER : Z := 0x8892.
Definition STATIC_DRAW : Z := 0x88E4.
Definition FRAGMENT_SHADER : Z := 0x8B30.
Definition VERTEX_SHADER : Z := 0x8B31.
Definition COMPILE_STATUS : Z := 0x8B81.
Definition LINK_STATUS : Z := 0x8B82.
Definition INFO_LOG_LENGTH : Z := 0x8B84.
End gl.

Module glfw.
(** Window hints of GLFW 3.3 and the values the program gives them. *)
Inductive Hint : Type :=
| Resizable
| ContextVersionMajor
| ContextVersionMinor
| OpenGLProfile
| OpenGLForwardCompatible.

Definition False : Z := 0.
Definition True : Z := 1.
Definition OpenGLCoreProfile : Z := 0x00032001.
End glfw.

(** The NUL byte that ends a C string. *)
Definition NUL : ascii := Ascii.zero.
Definition nul_str : string := String NUL EmptyString.

Definition NUM_BYTES_IN_32_BIT : Z := 4.
Definition width : Z := 640.
Definition height : Z := 480.

Definition vertexShaderSource : string :=
  ("
    #version 410

    uniform float u_time;

    in vec3 vp;
    void main() {
    		float pct = abs(sin(u_time));
        gl_Position = vec4(vp, pct);
    }
" ++ nul_str)%string.

Definition fragmentShaderSource : string :=
  ("
    #version 410

    uniform vec2 u_resolution;
    uniform float u_time;

    vec3 colorA = vec3(0.149,0.141,0.912);
    vec3 colorB = vec3(1.000,0.833,0.224);

    out vec4 FragColor;

    void main() {
        vec3 color = vec3(0.0);

        float pct = abs(sin(u_time));

        // Mix uses pct (a value from 0-1) to
        // mix the two colors
        color = mix(colorA, colorB, pct);

        FragColor = vec4(color,1.0);
    }
" ++ nul_str)%string.

(** A [float32] is its IEEE 754 binary32 bit pattern: one sign bit, eight
    exponent bits, twenty-three fraction bits.  Every pattern of 32 bits is
    a [float32], and nothing else is. *)
Record float32 : Type := Float32frombits {
  Float32bits : Z;
  Float32bits_range : (0 <=? Float32bits) && (Float32bits <? 2 ^ 32) = true
}.

Definition float32_sign (x : float32) : bool := Z.testbit (Float32bits x) 31.
Definition float32_exponent (x : float32) : Z :=
  Z.land (Z.shiftr (Float32bits x) 23) 0xFF.
Definition float32_fraction (x : float32) : Z :=
  Z.land (Float32bits x) 0x7FFFFF.

(** The number a finite [float32] stands for, in lowest terms; infinities
    and NaNs (exponent field 255) stand for none. *)
Definition float32_value (x : float32) : option Q :=
  let e := float32_exponent x in
  let f := float32_fraction x in
  if e =? 255 then None
  else
    let m := if e =? 0 then f else 2 ^ 23 + f in
    let k := (if e =? 0 then 1 else e) - 150 in
    let magnitude := (inject_Z m * Qpower (2 # 1) k)%Q in
    Some (Qred (if float32_sign x then - magnitude else magnitude)%Q).

(** The constants [0], [0.5] and [-0.5] of the shapes, converted to
    [float32]; the conversion is exact for all three. *)
Definition f32_0 : float32 := Float32frombits 0x00000000 eq_refl.
Definition f32_0_5 : float32 := Float32frombits 0x3F000000 eq_refl.
Definition f32_neg_0_5 : float32 := Float32frombits 0xBF000000 eq_refl.

Definition right : list float32 :=
  [ f32_neg_0_5; f32_0_5; f32_0;
    f32_neg_0_5; f32_neg_0_5; f32_0;
    f32_0_5; f32_neg_0_5; f32_0 ].

Definition square : list float32 :=
  [ f32_neg_0_5; f32_0_5; f32_0;
    f32_neg_0_5; f32_neg_0_5; f32_0;
    f32_0_5; f32_neg_0_5; f32_0;
    f32_neg_0_5; f32_0_5; f32_0;
    f32_0_5; f32_0_5; f32_0;
    f32_0_5; f32_neg_0_5; f32_0 ].

Definition isoceles : list float32 :=
  [ f32_0; f32_0_5; f32_0;
    f32_neg_0_5; f32_neg_0_5; f32_0;
    f32_0_5; f32_neg_0_5; f32_0 ].

(** [float pct = abs(sin(u_time));] -- the same line in both shader stages,
    read over the reals. *)
Definition pct (u_time : R) : R := Rabs (sin u_time).

(* ================================================================== *)
(** ** Machine integers *)
(* ================================================================== *)

(** Conversion to Go's [int32]: keep the low 32 bits, read as signed. *)
Definition int32 (z : Z) : Z := (z + 2 ^ 31) mod 2 ^ 32 - 2 ^ 31.

(** Go's [int] on a 64-bit target. *)
Definition int64 (z : Z) : Z := (z + 2 ^ 63) mod 2 ^ 64 - 2 ^ 63.

(** [len(s)] of a slice, as an [int]. *)
Definition len {A : Type} (s : list A) : Z := Z.of_nat (List.length s).

(* ================================================================== *)
(** ** Events *)
(* ================================================================== *)

Definition error : Type := string.
Definition Window : Type := Z.

(** The [cell] type is declared outside [main.go]; [draw] reads one field
    of it, the name of the cell's vertex array. *)
Record cell : Type := { drawable : Z }.

(** One constructor per library call.  The arguments come first, what the
    library answered (when it answers) comes last.  Arguments that the
    program always passes as [nil] are left out.  [GlGetProgramiv] and
    [GlGetProgramInfoLog] are the two queries of a program object that the
    OpenGL binding offers after linking; [GlUniform1f] keeps the duration
    whose seconds are passed as a [float32]. *)
Inductive Event : Type :=
| GlfwInit (err : option error)
| GlfwWindowHint (target : glfw.Hint) (hint : Z)
| GlfwCreateWindow (w h : Z) (title : string) (res : Window * option error)
| WindowMakeContextCurrent (win : Window)
| GlfwTerminate
| GlfwPollEvents
| WindowShouldClose (win : Window) (res : bool)
| WindowSwapBuffers (win : Window)
| GlInit (err : option error)
| GlGetString (name : Z) (res : string)
| LogPrintln (args : list string)
| TimeNow (res : Z)
| TimeSince (start : Z) (res : Z)
| MakeCells (res : list (list cell))
| GlCreateShader (shaderType : Z) (res : Z)
| GlShaderSource (shader count : Z) (csources : list string)
| GlCompileShader (shader : Z)
| GlGetShaderiv (shader pname : Z) (res : Z)
| GlGetShaderInfoLog (shader bufSize : Z) (buf written : string)
| GlCreateProgram (res : Z)
| GlAttachShader (prog shader : Z)
| GlLinkProgram (prog : Z)
| GlGetProgramiv (prog pname : Z) (res : Z)
| GlGetProgramInfoLog (prog bufSize : Z) (buf written : string)
| GlGetUniformLocation (prog : Z) (name : string) (res : Z)
| GlUniform1f (location : Z) (elapsed : Z)
| GlClear (mask : Z)
| GlUseProgram (prog : Z)
| GlGenBuffers (n : Z) (res : Z)
| GlBindBuffer (target buffer : Z)
| GlBufferData (target size : Z) (data : list float32) (usage : Z)
| GlGenVertexArrays (n : Z) (res : Z)
| GlBindVertexArray (array : Z)
| GlEnableVertexAttribArray (index : Z)
| GlVertexAttribPointer (index size xtype : Z) (normalized : bool)
                        (stride pointer : Z)
| GlDrawArrays (mode first count : Z).

(** What the libraries answer.  A call that is the [n]-th event of the run
    is answered by the field for that call at [n]; nothing else is assumed
    about the answers. *)
Record Driver : Type := {
  drv_glfw_Init : nat -> option error;
  drv_glfw_CreateWindow : nat -> Z -> Z -> string -> Window * option error;
  drv_window_ShouldClose : nat -> Window -> bool;
  drv_gl_Init : nat -> option error;
  drv_gl_GetString : nat -> Z -> string;
  drv_time_Now : nat -> Z;
  drv_time_Since : nat -> Z -> Z;
  drv_makeCells : nat -> list (list cell);
  drv_gl_CreateShader : nat -> Z -> Z;
  drv_gl_GetShaderiv : nat -> Z -> Z -> Z;
  drv_gl_GetShaderInfoLog : nat -> Z -> Z -> string;
  drv_gl_CreateProgram : nat -> Z;
  drv_gl_GetUniformLocation : nat -> Z -> string -> Z;
  drv_gl_GenBuffers : nat -> Z;
  drv_gl_GenVertexArrays : nat -> Z
}.

(* ================================================================== *)
(** ** The monad of runs *)
(* ================================================================== *)

(** How a computation ends: it returns, it panics (deferred calls still
    run), the process exits at once without unwinding ([os.Exit]; no call
    of this program does), or it is still running when the bound on loop
    iterations is reached. *)
Inductive Outcome (A : Type) : Type :=
| Done (a : A)
| Panic (v : string)
| Fatal (msg : string)
| Running.
Arguments Done {A} a.
Arguments Panic {A} v.
Arguments Fatal {A} msg.
Arguments Running {A}.

(** A computation started as event number [n] of the run yields the events
    it performs and its outcome. *)
Definition M (A : Type) : Type := nat -> list Event * Outcome A.

Definition ret {A : Type} (a : A) : M A := fun _ => ([], Done a).

Definition bind {A B : Type} (m : M A) (f : A -> M B) : M B :=
  fun n =>
    let (e1, o) := m n in
    match o with
    | Done a => let (e2, o2) := f a (List.length e1 + n)%nat in (e1 ++ e2, o2)
    | Panic v => (e1, Panic v)
    | Fatal msg => (e1, Fatal msg)
    | Running => (e1, Running)
    end.

Definition panic {A : Type} (v : string) : M A := fun _ => ([], Panic v).

(** A call without an answer. *)
Definition emit (e : Event) : M unit := fun _ => ([e], Done tt).

(** A call answered by the driver. *)
Definition call {A : Type} (answer : nat -> A) (e : A -> Event) : M A :=
  fun n => let a := answer n in ([e a], Done a).

Notation "x <- m ;; k" := (bind m (fun x => k))
  (at level 61, m at next level, right associativity).
Notation "' pat <- m ;; k" := (bind m (fun x => match x with pat => k end))
  (at level 61, pat pattern, m at next level, right associativity).
Notation "m ;; k" := (bind m (fun _ => k))
  (at level 61, right associativity).

(** [defer f()] followed by the rest of the function body: [f] runs when the
    body returns or panics, not when the process exits or is still running. *)
Definition defer {A : Type} (deferred : M unit) (body : M A) : M A :=
  fun n =>
    let (e1, o) := body n in
    match o with
    | Done _ | Panic _ =>
        let (e2, o2) := deferred (List.length e1 + n)%nat in
        (e1 ++ e2,
         match o2 with
         | Done _ => o
         | Panic v => Panic v
         | Fatal msg => Fatal msg
         | Running => Running
         end)
    | Fatal _ | Running => (e1, o)
    end.

(** [for _, x := range xs { f(x) }] *)
Fixpoint for_each {A : Type} (xs : list A) (f : A -> M unit) : M unit :=
  match xs with
  | [] => ret tt
  | x :: rest => f x ;; for_each rest f
  end.

(** [if err != nil { panic(err) }] *)
Definition panic_if (err : option error) : M unit :=
  match err with
  | Some e => panic e
  | None => ret tt
  end.

(* ================================================================== *)
(** ** Library helpers that run in the process *)
(* ================================================================== *)

Fixpoint repeat_string (s : string) (count : nat) : string :=
  match count with
  | O => EmptyString
  | S k => (s ++ repeat_string s k)%string
  end.

(** [strings.Repeat]: panics on a negative count. *)
Definition strings_Repeat (s : string) (count : Z) : M string :=
  if count <? 0 then panic "strings: negative Repeat count"
  else ret (repeat_string s (Z.to_nat count)).

Fixpoint has_nul_suffix (s : string) : bool :=
  match s with
  | EmptyString => false
  | String c EmptyString => Ascii.eqb c NUL
  | String _ rest => has_nul_suffix rest
  end.

(** [gl.Str]: the address of the bytes of a Go string, which must end in
    NUL; otherwise the binding panics. *)
Definition gl_Str (str : string) : M string :=
  if has_nul_suffix str then ret str
  else panic ("str argument missing null terminator: " ++ str)%string.

(** [gl.Ptr] of a slice: the address of its element 0, found by reflection;
    for a slice without elements (empty or nil) the indexing panics. *)
Definition gl_Ptr {A : Type} (data : list A) : M (list A) :=
  match data with
  | [] => panic "reflect: slice index out of range"
  | _ :: _ => ret data
  end.

Fixpoint take_string (k : nat) (s : string) : string :=
  match k, s with
  | S k', String c rest => String c (take_string k' rest)
  | _, _ => EmptyString
  end.

Fixpoint drop_string (k : nat) (s : string) : string :=
  match k, s with
  | S k', String _ rest => drop_string k' rest
  | _, _ => s
  end.

(** The bytes of [buf] after the driver stored [written] at its start, of
    which at most [bufSize] bytes are accepted. *)
Definition overwrite (bufSize : Z) (written buf : string) : string :=
  let w := take_string (Z.to_nat bufSize) written in
  let w := take_string (String.length buf) w in
  (w ++ drop_string (String.length w) buf)%string.

(** [fmt.Errorf("failed to compile %v: %v", source, log)] *)
Definition fmt_Errorf_failed_to_compile (source log : string) : error :=
  ("failed to compile " ++ source ++ ": " ++ log)%string.

(* ================================================================== *)
(** ** The program *)
(* ================================================================== *)

Section Program.

Variable d : Driver.

(** *** Library calls *)

Definition glfw_Init : M (option error) :=
  call (drv_glfw_Init d) GlfwInit.
Definition glfw_WindowHint (target : glfw.Hint) (hint : Z) : M unit :=
  emit (GlfwWindowHint target hint).
Definition glfw_CreateWindow (w h : Z) (title : string)
  : M (Window * option error) :=
  call (fun n => drv_glfw_CreateWindow d n w h title)
       (GlfwCreateWindow w h title).
Definition window_MakeContextCurrent (win : Window) : M unit :=
  emit (WindowMakeContextCurrent win).
Definition glfw_Terminate : M unit := emit GlfwTerminate.
Definition glfw_PollEvents : M unit := emit GlfwPollEvents.
Definition window_ShouldClose (win : Window) : M bool :=
  call (fun n => drv_window_ShouldClose d n win) (WindowShouldClose win).
Definition window_SwapBuffers (win : Window) : M unit :=
  emit (WindowSwapBuffers win).
Definition gl_Init : M (option error) := call (drv_gl_Init d) GlInit.
(** [gl.GoStr(gl.GetString(name))] *)
Definition gl_GetString (name : Z) : M string :=
  call (fun n => drv_gl_GetString d n name) (GlGetString name).
Definition log_Println (args : list string) : M unit :=
  emit (LogPrintln args).
Definition time_Now : M Z := call (drv_time_Now d) TimeNow.
Definition time_Since (start : Z) : M Z :=
  call (fun n => drv_time_Since d n start) (TimeSince start).
(** [makeCells] is called by [main] and defined outside [main.go]: its
    body is not run here, the grid it returns is an answer like the
    others. *)
Definition makeCells : M (list (list cell)) :=
  call (drv_makeCells d) MakeCells.
Definition gl_CreateShader (shaderType : Z) : M Z :=
  call (fun n => drv_gl_CreateShader d n shaderType)
       (GlCreateShader shaderType).
Definition gl_ShaderSource (shader count : Z) (csources : list string)
  : M unit :=
  emit (GlShaderSource shader count csources).
Definition gl_CompileShader (shader : Z) : M unit :=
  emit (GlCompileShader shader).
Definition gl_GetShaderiv (shader pname : Z) : M Z :=
  call (fun n => drv_gl_GetShaderiv d n shader pname)
       (GlGetShaderiv shader pname).
(** The buffer is returned as it is after the call. *)
Definition gl_GetShaderInfoLog (shader bufSize : Z) (buf : string)
  : M string :=
  w <- call (fun n => drv_gl_GetShaderInfoLog d n shader bufSize)
            (GlGetShaderInfoLog shader bufSize buf) ;;
  ret (overwrite bufSize w buf).
Definition gl_CreateProgram : M Z :=
  call (drv_gl_CreateProgram d) GlCreateProgram.
Definition gl_AttachShader (prog shader : Z) : M unit :=
  emit (GlAttachShader prog shader).
Definition gl_LinkProgram (prog : Z) : M unit := emit (GlLinkProgram prog).
Definition gl_GetUniformLocation (prog : Z) (name : string) : M Z :=
  call (fun n => drv_gl_GetUniformLocation d n prog name)
       (GlGetUniformLocation prog name).
(** The value passed is [float32(elapsed.Seconds())]; the event keeps the
    duration it is computed from. *)
Definition gl_Uniform1f (location : Z) (elapsed : Z) : M unit :=
  emit (GlUniform1f location elapsed).
Definition gl_Clear (mask : Z) : M unit := emit (GlClear mask).
Definition gl_UseProgram (prog : Z) : M unit := emit (GlUseProgram prog).
Definition gl_GenBuffers (n : Z) : M Z :=
  call (drv_gl_GenBuffers d) (GlGenBuffers n).
Definition gl_BindBuffer (target buffer : Z) : M unit :=
  emit (GlBindBuffer target buffer).
Definition gl_BufferData (target size : Z) (data : list float32)
                         (usage : Z) : M unit :=
  emit (GlBufferData target size data usage).
Definition gl_GenVertexArrays (n : Z) : M Z :=
  call (drv_gl_GenVertexArrays d) (GlGenVertexArrays n).
Definition gl_BindVertexArray (array : Z) : M unit :=
  emit (GlBindVertexArray array).
Definition gl_EnableVertexAttribArray (index : Z) : M unit :=
  emit (GlEnableVertexAttribArray index).
Definition gl_VertexAttribPointer (index size xtype : Z)
    (normalized : bool) (stride pointer : Z) : M unit :=
  emit (GlVertexAttribPointer index size xtype normalized stride pointer).
Definition gl_DrawArrays (mode first count : Z) : M unit :=
  emit (GlDrawArrays mode first count).

(** *** [func (c *cell) draw()] *)

Definition draw (c : cell) : M unit :=
  gl_BindVertexArray (drawable c) ;;
  gl_DrawArrays gl.LINE_LOOP 0 (int32 (len square / 3)).

(** *** [func makeVao(points []float32) uint32] *)

Definition makeVao (points : list float32) : M Z :=
  vbo <- gl_GenBuffers 1 ;;
  gl_BindBuffer gl.ARRAY_BUFFER vbo ;;
  data <- gl_Ptr points ;;
  gl_BufferData gl.ARRAY_BUFFER (int64 (NUM_BYTES_IN_32_BIT * len points))
                data gl.STATIC_DRAW ;;
  vao <- gl_GenVertexArrays 1 ;;
  gl_BindVertexArray vao ;;
  gl_EnableVertexAttribArray 0 ;;
  gl_BindBuffer gl.ARRAY_BUFFER vbo ;;
  gl_VertexAttribPointer 0 3 gl.FLOAT false 0 0 ;;
  ret vao.

(** *** [func compileShader(source string, shaderType uint32) (uint32, error)]

    [gl.Strs] copies the source into C memory and [free] releases it again;
    neither is a call into GLFW or OpenGL, so neither is an event. *)

Definition compileShader (source : string) (shaderType : Z)
  : M (Z * option error) :=
  shader <- gl_CreateShader shaderType ;;
  gl_ShaderSource shader 1 [source] ;;
  gl_CompileShader shader ;;
  status <- gl_GetShaderiv shader gl.COMPILE_STATUS ;;
  if status =? gl.FALSE then
    logLength <- gl_GetShaderiv shader gl.INFO_LOG_LENGTH ;;
    log <- strings_Repeat nul_str (int32 (logLength + 1)) ;;
    p <- gl_Str log ;;
    log <- gl_GetShaderInfoLog shader logLength p ;;
    ret (0, Some (fmt_Errorf_failed_to_compile source log))
  else
    ret (shader, None).

(** *** The render loop of [main] *)

(** One pass through the body of [for !window.ShouldClose() { ... }]. *)
Definition frame (window : Window) (prog start : Z)
                 (cells : list (list cell)) : M unit :=
  name <- gl_Str ("u_time" ++ nul_str)%string ;;
  location <- gl_GetUniformLocation prog name ;;
  elapsed <- time_Since start ;;
  gl_Uniform1f location elapsed ;;
  gl_Clear (Z.lor gl.COLOR_BUFFER_BIT gl.DEPTH_BUFFER_BIT) ;;
  gl_UseProgram prog ;;
  for_each (seq 0 (List.length cells))
           (fun x => for_each (nth x cells []) draw) ;;
  glfw_PollEvents ;;
  window_SwapBuffers window.

(** The loop, cut off after [fuel] evaluations of its condition. *)
Fixpoint renderLoop (fuel : nat) (window : Window) (prog start : Z)
                    (cells : list (list cell)) : M unit :=
  match fuel with
  | O => fun _ => ([], Running)
  | S fuel' =>
      close <- window_ShouldClose window ;;
      if close then ret tt
      else frame window prog start cells ;;
           renderLoop fuel' window prog start cells
  end.

(** *** [func main()] *)

Definition main (fuel : nat) : M unit :=
  err <- glfw_Init ;;
  panic_if err ;;
  glfw_WindowHint glfw.Resizable glfw.False ;;
  glfw_WindowHint glfw.ContextVersionMajor 4 ;;
  glfw_WindowHint glfw.ContextVersionMinor 1 ;;
  glfw_WindowHint glfw.OpenGLProfile glfw.OpenGLCoreProfile ;;
  glfw_WindowHint glfw.OpenGLForwardCompatible glfw.True ;;
  '(window, err) <- glfw_CreateWindow width height "Conway's Game of Life" ;;
  panic_if err ;;
  window_MakeContextCurrent window ;;
  defer glfw_Terminate (
    err <- gl_Init ;;
    panic_if err ;;
    version <- gl_GetString gl.VERSION ;;
    log_Println ["OpenGL Version"%string; version] ;;
    '(vertexShader, err) <- compileShader vertexShaderSource gl.VERTEX_SHADER ;;
    panic_if err ;;
    '(fragmentShader, err) <-
      compileShader fragmentShaderSource gl.FRAGMENT_SHADER ;;
    panic_if err ;;
    prog <- gl_CreateProgram ;;
    gl_AttachShader prog vertexShader ;;
    gl_AttachShader prog fragmentShader ;;
    gl_LinkProgram prog ;;
    start <- time_Now ;;
    cells <- makeCells ;;
    renderLoop fuel window prog start cells).

End Program.

(* ================================================================== *)
(** ** Reading a run *)
(* ================================================================== *)

(** The third component of every vertex of a flat coordinate list. *)
Fixpoint z_components (s : list float32) : list float32 :=
  match s with
  | _ :: _ :: z :: rest => z :: z_components rest
  | _ => []
  end.

(** The events of one call of [draw]. *)
Definition draw_events (c : cell) : list Event :=
  [GlBindVertexArray (drawable c); GlDrawArrays gl.LINE_LOOP 0 6].

(** The setup calls that report a failure: an error returned by
    [glfw.Init], [glfw.CreateWindow] or [gl.Init], and a compile status read
    back as [FALSE]. *)
Definition setup_failure (e : Event) : bool :=
  match e with
  | GlfwInit (Some _) => true
  | GlfwCreateWindow _ _ _ (_, Some _) => true
  | GlInit (Some _) => true
  | GlGetShaderiv _ pname res =>
      (pname =? gl.COMPILE_STATUS) && (res =? gl.FALSE)
  | _ => false
  end.

(** The calls made by the condition and the body of the render loop. *)
Definition render_loop_event (e : Event) : bool :=
  match e with
  | WindowShouldClose _ _ | GlGetUniformLocation _ _ _ | TimeSince _ _
  | GlUniform1f _ _ | GlClear _ | GlUseProgram _ | GlBindVertexArray _
  | GlDrawArrays _ _ _ | GlfwPollEvents | WindowSwapBuffers _ => true
  | _ => false
  end.

(** Queries of a program object's link status or info log. *)
Definition link_query (e : Event) : bool :=
  match e with
  | GlGetProgramiv _ _ _ | GlGetProgramInfoLog _ _ _ _ => true
  | _ => false
  end.

Definition is_draw_call (e : Event) : bool :=
  match e with
  | GlDrawArrays _ _ _ => true
  | _ => false
  end.

Definition is_swap (e : Event) : bool :=
  match e with
  | WindowSwapBuffers _ => true
  | _ => false
  end.

Definition is_close_check (e : Event) : bool :=
  match e with
  | WindowShouldClose _ _ => true
  | _ => false
  end.

(** Process ended by a panic or by an exit. *)
Definition aborted {A : Type} (o : Outcome A) : bool :=
  match o with
  | Panic _ | Fatal _ => true
  | Done _ | Running => false
  end.

(** The answer to the first evaluation of the loop condition, if any. *)
Fixpoint first_check (tr : list Event) : option bool :=
  match tr with
  | [] => None
  | WindowShouldClose _ res :: _ => Some res
  | _ :: rest => first_check rest
  end.

(** The events that follow the first check that found the window closed. *)
Fixpoint after_close (tr : list Event) : option (list Event) :=
  match tr with
  | [] => None
  | WindowShouldClose _ true :: rest => Some rest
  | _ :: rest => after_close rest
  end.

(** The order of one pass through the loop body as the specification words
    it: uniform, clear, program, draw calls, swap, poll. *)
Definition claimed_frame_order (window : Window) (prog : Z)
                               (cells : list (list cell))
                               (tr : list Event) : Prop :=
  exists name location start elapsed mask,
    tr = [GlGetUniformLocation prog name location;
          TimeSince start elapsed;
          GlUniform1f location elapsed;
          GlClear mask;
          GlUseProgram prog]
         ++ flat_map draw_events (List.concat cells)
         ++ [WindowSwapBuffers window; GlfwPollEvents].

(** Window hints and window creation. *)
Definition window_setup_event (e : Event) : bool :=
  match e with
  | GlfwWindowHint _ _ | GlfwCreateWindow _ _ _ _ => true
  | _ => false
  end.

(** The events that follow the first failed setup call. *)
Fixpoint after_failure (tr : list Event) : list Event :=
  match tr with
  | [] => []
  | e :: rest => if setup_failure e then rest else after_failure rest
  end.

(** What may still happen once a setup call has failed: the log of the
    shader is read, and the deferred [glfw.Terminate] runs. *)
Definition failure_epilogue (e : Event) : bool :=
  match e with
  | GlGetShaderiv _ pname _ => pname =? gl.INFO_LOG_LENGTH
  | GlGetShaderInfoLog _ _ _ _ => true
  | GlfwTerminate => true
  | _ => false
  end.

(** Number of events from one evaluation of the loop condition to the
    next: the check, seven calls around the draws, two calls per cell. *)
Definition iteration_length (cells : list (list cell)) : nat :=
  8 + 2 * List.length (List.concat cells).

Definition is_terminate (e : Event) : bool :=
  match e with
  | GlfwTerminate => true
  | _ => false
  end.

Definition is_make_current (e : Event) : bool :=
  match e with
  | WindowMakeContextCurrent _ => true
  | _ => false
  end.

Definition is_use_program (e : Event) : bool :=
  match e with
  | GlUseProgram _ => true
  | _ => false
  end.

Definition is_uniform (e : Event) : bool :=
  match e with
  | GlUniform1f _ _ => true
  | _ => false
  end.

Definition is_uniform_lookup (e : Event) : bool :=
  match e with
  | GlGetUniformLocation _ _ _ => true
  | _ => false
  end.

Definition is_clear (e : Event) : bool :=
  match e with
  | GlClear _ => true
  | _ => false
  end.

Definition is_poll (e : Event) : bool :=
  match e with
  | GlfwPollEvents => true
  | _ => false
  end.

Definition is_bind_vertex_array (e : Event) : bool :=
  match e with
  | GlBindVertexArray _ => true
  | _ => false
  end.

(** A check of the loop condition that found the window open. *)
Definition is_open_check (e : Event) : bool :=
  match e with
  | WindowShouldClose _ false => true
  | _ => false
  end.

(** Number of events of a run that satisfy [P]. *)
Definition count (P : Event -> bool) (tr : list Event) : nat :=
  List.length (filter P tr).

(** The function returned, or it panicked: in both cases the deferred
    calls run. *)
Definition unwinds {A : Type} (o : Outcome A) : bool :=
  match o with
  | Done _ | Panic _ => true
  | Fatal _ | Running => false
  end.

(** The events of a run up to its first [gl.Uniform1f]. *)
Fixpoint until_first_uniform (tr : list Event) : list Event :=
  match tr with
  | [] => []
  | GlUniform1f _ _ :: _ => []
  | e :: rest => e :: until_first_uniform rest
  end.

(** The grid that [makeCells] returned in a run, if it was called. *)
Fixpoint cells_of (tr : list Event) : list (list cell) :=
  match tr with
  | [] => []
  | MakeCells res :: _ => res
  | _ :: rest => cells_of rest
  end.

(* ================================================================== *)
(** ** Concrete drivers *)
(* ================================================================== *)

(** A driver for which every call succeeds and the window is closed from
    event number [close_from] on. *)
Definition good_driver (close_from : nat) : Driver := {|
  drv_glfw_Init := fun _ => None;
  drv_glfw_CreateWindow := fun _ _ _ _ => (7, None);
  drv_window_ShouldClose := fun n _ => Nat.leb close_from n;
  drv_gl_Init := fun _ => None;
  drv_gl_GetString := fun _ _ => "4.1"%string;
  drv_time_Now := fun _ => 1000;
  drv_time_Since := fun n _ => Z.of_nat n;
  drv_makeCells := fun _ => [[ {| drawable := 1 |}; {| drawable := 2 |} ];
                             [ {| drawable := 3 |} ]];
  drv_gl_CreateShader := fun n _ => Z.of_nat n;
  drv_gl_GetShaderiv := fun _ _ _ => 1;
  drv_gl_GetShaderInfoLog := fun _ _ _ => EmptyString;
  drv_gl_CreateProgram := fun _ => 3;
  drv_gl_GetUniformLocation := fun _ _ _ => 0;
  drv_gl_GenBuffers := fun _ => 1;
  drv_gl_GenVertexArrays := fun _ => 1
|}.

(** A driver whose shader compiler rejects every source with a short log. *)
Definition rejecting_driver : Driver := {|
  drv_glfw_Init := fun _ => None;
  drv_glfw_CreateWindow := fun _ _ _ _ => (7, None);
  drv_window_ShouldClose := fun _ _ => false;
  drv_gl_Init := fun _ => None;
  drv_gl_GetString := fun _ _ => "4.1"%string;
  drv_time_Now := fun _ => 1000;
  drv_time_Since := fun n _ => Z.of_nat n;
  drv_makeCells := fun _ => [];
  drv_gl_CreateShader := fun _ _ => 1;
  drv_gl_GetShaderiv := fun _ _ pname =>
    if pname =? gl.INFO_LOG_LENGTH then 4 else gl.FALSE;
  drv_gl_GetShaderInfoLog := fun _ _ _ => ("bad" ++ nul_str)%string;
  drv_gl_CreateProgram := fun _ => 3;
  drv_gl_GetUniformLocation := fun _ _ _ => 0;
  drv_gl_GenBuffers := fun _ => 1;
  drv_gl_GenVertexArrays := fun _ => 1
|}.

(** A driver whose shader compiler rejects every source and reports the
    largest log length an [int32] can hold. *)
Definition overflowing_driver : Driver := {|
  drv_glfw_Init := fun _ => None;
  drv_glfw_CreateWindow := fun _ _ _ _ => (7, None);
  drv_window_ShouldClose := fun _ _ => false;
  drv_gl_Init := fun _ => None;
  drv_gl_GetString := fun _ _ => "4.1"%string;
  drv_time_Now := fun _ => 1000;
  drv_time_Since := fun n _ => Z.of_nat n;
  drv_makeCells := fun _ => [];
  drv_gl_CreateShader := fun _ _ => 1;
  drv_gl_GetShaderiv := fun _ _ pname =>
    if pname =? gl.INFO_LOG_LENGTH then 2 ^ 31 - 1 else gl.FALSE;
  drv_gl_GetShaderInfoLog := fun _ _ _ => EmptyString;
  drv_gl_CreateProgram := fun _ => 3;
  drv_gl_GetUniformLocation := fun _ _ _ => 0;
  drv_gl_GenBuffers := fun _ => 1;
  drv_gl_GenVertexArrays := fun _ => 1
|}.

(** A driver whose shader compiler rejects every source and reports a log
    length of -1, so that the buffer prepared for the log is empty. *)
Definition negative_length_driver : Driver := {|
  drv_glfw_Init := fun _ => None;
  drv_glfw_CreateWindow := fun _ _ _ _ => (7, None);
  drv_window_ShouldClose := fun _ _ => false;
  drv_gl_Init := fun _ => None;
  drv_gl_GetString := fun _ _ => "4.1"%string;
  drv_time_Now := fun _ => 1000;
  drv_time_Since := fun n _ => Z.of_nat n;
  drv_makeCells := fun _ => [];
  drv_gl_CreateShader := fun _ _ => 1;
  drv_gl_GetShaderiv := fun _ _ pname =>
    if pname =? gl.INFO_LOG_LENGTH then -1 else gl.FALSE;
  drv_gl_GetShaderInfoLog := fun _ _ _ => EmptyString;
  drv_gl_CreateProgram := fun _ => 3;
  drv_gl_GetUniformLocation := fun _ _ _ => 0;
  drv_gl_GenBuffers := fun _ => 1;
  drv_gl_GenVertexArrays := fun _ => 1
|}.

(* ================================================================== *)
(** ** Strings and machine integers *)
(* ================================================================== *)

Lemma int32_small z : - 2 ^ 31 <= z < 2 ^ 31 -> int32 z = z.
Proof.
  intros Hz. unfold int32.
  rewrite Z.mod_small by lia. lia.
Qed.

Lemma int64_small z : - 2 ^ 63 <= z < 2 ^ 63 -> int64 z = z.
Proof.
  intros Hz. unfold int64.
  rewrite Z.mod_small by lia. lia.
Qed.

Lemma length_append_string (s t : string) :
  String.length (s ++ t) = (String.length s + String.length t)%nat.
Proof.
  induction s as [|c s IH]; simpl; [reflexivity | now rewrite IH].
Qed.

Lemma length_repeat_nul k : String.length (repeat_string nul_str k) = k.
Proof.
  induction k as [|k IH]; simpl; [reflexivity | now rewrite IH].
Qed.

Lemma has_nul_suffix_repeat k :
  has_nul_suffix (repeat_string nul_str (S k)) = true.
Proof.
  induction k as [|k IH]; [reflexivity|].
  change (repeat_string nul_str (S (S k)))
    with (String NUL (repeat_string nul_str (S k))).
  remember (repeat_string nul_str (S k)) as r eqn:Er.
  destruct r as [|c r']; [discriminate Er|].
  exact IH.
Qed.

Lemma length_take_string k s :
  String.length (take_string k s) = Nat.min k (String.length s).
Proof.
  revert s; induction k as [|k IH]; intros [|c s]; simpl; auto.
Qed.

Lemma length_drop_string k s :
  String.length (drop_string k s) = (String.length s - k)%nat.
Proof.
  revert s; induction k as [|k IH]; intros [|c s]; simpl; auto.
Qed.

(** Storing the driver's bytes never changes the size of the buffer. *)
Lemma length_overwrite bufSize written buf :
  String.length (overwrite bufSize written buf) = String.length buf.
Proof.
  unfold overwrite.
  rewrite length_append_string, length_drop_string, !length_take_string.
  lia.
Qed.

(* ================================================================== *)
(** ** The shader arithmetic and the shapes *)
(* ================================================================== *)

(** C9.  For every real [t] the mix factor [abs(sin(t))] of the two shader
    stages lies in [[0,1]]; it is 0 at [t = 0] and 1 at [t = PI/2]. *)
Theorem pct_in_unit_interval :
  (forall t : R, (0 <= pct t <= 1)%R) /\
  pct 0%R = 0%R /\
  pct (PI / 2)%R = 1%R.
Proof.
  unfold pct. repeat split.
  - apply Rabs_pos.
  - apply Rabs_le. destruct (SIN_bound t) as [Hlo Hhi]. split; assumption.
  - rewrite sin_0. apply Rabs_R0.
  - rewrite sin_PI2. apply Rabs_R1.
Qed.

(** The three coordinate constants stand for 0, 1/2 and -1/2. *)
Lemma float32_value_constants :
  float32_value f32_0 = Some 0%Q /\
  float32_value f32_0_5 = Some (1 # 2)%Q /\
  float32_value f32_neg_0_5 = Some (- (1 # 2))%Q.
Proof.
  repeat split; vm_compute; reflexivity.
Qed.

(** C10.  The lengths of [right], [square] and [isoceles] are multiples of
    3, their coordinates are finite floats with values in [[-0.5, 0.5]],
    their z components are 0; [square] has 6 vertices, and
    [int32(len(square)/3)] is 6, the conversion losing nothing. *)
Theorem shapes_well_formed :
  Forall (fun s : list float32 =>
            len s mod 3 = 0 /\
            Forall (fun x => exists q, float32_value x = Some q /\
                                       (-(1#2) <= q)%Q /\ (q <= 1#2)%Q) s /\
            Forall (fun z => float32_value z = Some 0%Q) (z_components s))
         [right; square; isoceles] /\
  len square = 18 /\
  len square / 3 = 6 /\
  int32 (len square / 3) = len square / 3 /\
  - 2 ^ 31 <= len square / 3 < 2 ^ 31.
Proof.
  destruct float32_value_constants as (Hzero & Hhalf & Hminus).
  assert (Rzero : exists q, float32_value f32_0 = Some q /\
                            (-(1#2) <= q)%Q /\ (q <= 1#2)%Q).
  { exists 0%Q. split; [exact Hzero|]. split; unfold Qle; simpl; lia. }
  assert (Rhalf : exists q, float32_value f32_0_5 = Some q /\
                            (-(1#2) <= q)%Q /\ (q <= 1#2)%Q).
  { exists (1#2)%Q. split; [exact Hhalf|]. split; unfold Qle; simpl; lia. }
  assert (Rminus : exists q, float32_value f32_neg_0_5 = Some q /\
                             (-(1#2) <= q)%Q /\ (q <= 1#2)%Q).
  { exists (-(1#2))%Q. split; [exact Hminus|].
    split; unfold Qle; simpl; lia. }
  split.
  - repeat (apply Forall_cons || apply Forall_nil);
      (split; [reflexivity|]); split;
      repeat (apply Forall_cons || apply Forall_nil); assumption.
  - repeat split; try reflexivity; vm_compute; congruence.
Qed.

(* ================================================================== *)
(** ** [draw], [makeVao], [compileShader] *)
(* ================================================================== *)

(** C1.  Drawing a cell binds the vertex array of that cell and then draws
    a line loop of [len(square)/3 = 6] vertices, whatever the cell is. *)
Theorem draw_binds_then_draws_square_count (c : cell) (n : nat) :
  draw c n =
    ([GlBindVertexArray (drawable c); GlDrawArrays gl.LINE_LOOP 0 6],
     Done tt) /\
  int32 (len square / 3) = 6.
Proof.
  split; reflexivity.
Qed.

(** C8.  For a slice with at least one element, [makeVao] uploads
    [4 * len(points)] bytes of [points] to the array buffer it has just
    bound, with [STATIC_DRAW]; it then binds a new vertex array, enables
    attribute 0, describes it as 3 floats, not normalized, stride 0, offset
    0, and returns the name of that vertex array.  (A slice that exists
    occupies [4 * len] bytes, hence the bound.) *)
Theorem makeVao_uploads_and_describes
    (d : Driver) (points : list float32) (n : nat) :
  points <> [] ->
  4 * len points < 2 ^ 63 ->
  let vbo := drv_gl_GenBuffers d n in
  let vao := drv_gl_GenVertexArrays d (3 + n) in
  makeVao d points n =
    ([GlGenBuffers 1 vbo;
      GlBindBuffer gl.ARRAY_BUFFER vbo;
      GlBufferData gl.ARRAY_BUFFER (4 * len points) points gl.STATIC_DRAW;
      GlGenVertexArrays 1 vao;
      GlBindVertexArray vao;
      GlEnableVertexAttribArray 0;
      GlBindBuffer gl.ARRAY_BUFFER vbo;
      GlVertexAttribPointer 0 3 gl.FLOAT false 0 0],
     Done vao).
Proof.
  intros Hnonempty Hfit vbo vao.
  destruct points as [|x points]; [contradiction|].
  unfold makeVao, bind, gl_GenBuffers, gl_GenVertexArrays, gl_Ptr,
    call, emit, ret.
  cbn [List.length Nat.add app].
  unfold NUM_BYTES_IN_32_BIT.
  rewrite int64_small by (unfold len in *; lia).
  reflexivity.
Qed.

Lemma makeVao_uploads_and_describes_witness :
  square <> [] /\
  4 * len square < 2 ^ 63 /\
  makeVao (good_driver 0) square 0%nat =
    ([GlGenBuffers 1 1;
      GlBindBuffer gl.ARRAY_BUFFER 1;
      GlBufferData gl.ARRAY_BUFFER 72 square gl.STATIC_DRAW;
      GlGenVertexArrays 1 1;
      GlBindVertexArray 1;
      GlEnableVertexAttribArray 0;
      GlBindBuffer gl.ARRAY_BUFFER 1;
      GlVertexAttribPointer 0 3 gl.FLOAT false 0 0],
     Done 1).
Proof.
  split; [discriminate|].
  split; [vm_compute; reflexivity|].
  apply (makeVao_uploads_and_describes (good_driver 0) square 0%nat).
  - discriminate.
  - vm_compute. reflexivity.
Defined.

(** C8 as worded, for every slice, fails on the empty slice: [gl.Ptr]
    panics once the buffer is generated and bound, nothing is uploaded and
    no vertex array is returned. *)
Lemma makeVao_empty_slice_panics :
  makeVao (good_driver 0) [] 0%nat =
    ([GlGenBuffers 1 1; GlBindBuffer gl.ARRAY_BUFFER 1],
     Panic "reflect: slice index out of range") /\
  ~ (exists tr vao, makeVao (good_driver 0) [] 0%nat = (tr, Done vao)).
Proof.
  split; [reflexivity|].
  intros (tr & vao & H). vm_compute in H. discriminate H.
Qed.

(** C2.  When the compile status read back is [FALSE] (and the driver
    reports a log length that an [int32] buffer size can hold), the function
    asks for the length of the info log, reads that many bytes into a buffer
    prepared beforehand, one byte longer, and returns handle 0 together with
    an error whose text holds the source and the log, the log being a
    non-empty string. *)
Theorem compileShader_failure_reports_source_and_log
    (d : Driver) (source : string) (shaderType : Z) (n : nat) :
  let shader := drv_gl_CreateShader d n shaderType in
  let status := drv_gl_GetShaderiv d (3 + n) shader gl.COMPILE_STATUS in
  let logLength := drv_gl_GetShaderiv d (4 + n) shader gl.INFO_LOG_LENGTH in
  let buf := repeat_string nul_str (Z.to_nat (logLength + 1)) in
  let written := drv_gl_GetShaderInfoLog d (5 + n) shader logLength in
  let log := overwrite logLength written buf in
  status = gl.FALSE ->
  0 <= logLength < 2 ^ 31 - 1 ->
  compileShader d source shaderType n =
    ([GlCreateShader shaderType shader;
      GlShaderSource shader 1 [source];
      GlCompileShader shader;
      GlGetShaderiv shader gl.COMPILE_STATUS gl.FALSE;
      GlGetShaderiv shader gl.INFO_LOG_LENGTH logLength;
      GlGetShaderInfoLog shader logLength buf written],
     Done (0, Some ("failed to compile " ++ source ++ ": " ++ log)%string)) /\
  String.length buf = Z.to_nat (logLength + 1) /\
  String.length log = Z.to_nat (logLength + 1) /\
  (0 < String.length log)%nat /\
  log <> EmptyString.
Proof.
  intros shader status logLength buf written log Hstatus Hlen.
  assert (Hbuf : String.length buf = Z.to_nat (logLength + 1))
    by apply length_repeat_nul.
  assert (Hlog : String.length log = Z.to_nat (logLength + 1))
    by (unfold log; now rewrite length_overwrite).
  assert (Hpos : (0 < String.length log)%nat) by lia.
  split; [|repeat split; try assumption].
  - unfold compileShader, bind, gl_CreateShader, gl_ShaderSource,
      gl_CompileShader, gl_GetShaderiv, gl_GetShaderInfoLog, call, emit, ret.
    cbn [List.length Nat.add app].
    fold shader. change (S (S (S n))) with (3 + n)%nat.
    fold status. rewrite Hstatus. cbn [Z.eqb gl.FALSE].
    cbn [List.length Nat.add app].
    change (S (S (S (S n)))) with (4 + n)%nat. fold logLength.
    unfold strings_Repeat, gl_Str, panic, ret.
    rewrite int32_small by lia.
    destruct (logLength + 1 <? 0) eqn:Hneg; [lia|].
    fold buf.
    assert (Hnul : has_nul_suffix buf = true).
    { unfold buf. replace (Z.to_nat (logLength + 1))
        with (S (Z.to_nat logLength)) by lia.
      apply has_nul_suffix_repeat. }
    rewrite Hnul.
    cbn [List.length Nat.add app].
    reflexivity.
  - intros Hempty. rewrite Hempty in Hpos. simpl in Hpos. lia.
Qed.

Lemma compileShader_failure_reports_source_and_log_witness :
  drv_gl_GetShaderiv rejecting_driver 3 1 gl.COMPILE_STATUS = gl.FALSE /\
  0 <= drv_gl_GetShaderiv rejecting_driver 4 1 gl.INFO_LOG_LENGTH
    < 2 ^ 31 - 1 /\
  compileShader rejecting_driver "void main() {" gl.VERTEX_SHADER 0%nat =
    ([GlCreateShader gl.VERTEX_SHADER 1;
      GlShaderSource 1 1 ["void main() {"%string];
      GlCompileShader 1;
      GlGetShaderiv 1 gl.COMPILE_STATUS gl.FALSE;
      GlGetShaderiv 1 gl.INFO_LOG_LENGTH 4;
      GlGetShaderInfoLog 1 4 (repeat_string nul_str 5) ("bad" ++ nul_str)],
     Done (0, Some ("failed to compile void main() {: bad"
                    ++ nul_str ++ nul_str)%string)).
Proof.
  split; [reflexivity|]. split; [vm_compute; split; congruence|].
  apply (compileShader_failure_reports_source_and_log
           rejecting_driver "void main() {" gl.VERTEX_SHADER 0%nat).
  - reflexivity.
  - vm_compute; split; congruence.
Defined.

(* ================================================================== *)
(** ** The render loop *)
(* ================================================================== *)

Lemma for_each_map {A B : Type} (h : A -> B) (g : B -> M unit) xs n :
  for_each (map h xs) g n = for_each xs (fun x => g (h x)) n.
Proof.
  revert n; induction xs as [|x xs IH]; intros n; [reflexivity|].
  simpl. unfold bind. destruct (g (h x) n) as [e1 [[]|v|msg|]]; try reflexivity.
  now rewrite IH.
Qed.

Lemma map_nth_indices {A : Type} (l : list A) (dflt : A) :
  map (fun x => nth x l dflt) (seq 0 (List.length l)) = l.
Proof.
  induction l as [|a l IH]; [reflexivity|].
  simpl. rewrite <- seq_shift, map_map. simpl. now rewrite IH.
Qed.

(** Ranging over the indices of a slice and indexing it visits its
    elements in order. *)
Lemma for_each_index {A : Type} (l : list A) (dflt : A) (g : A -> M unit) n :
  for_each (seq 0 (List.length l)) (fun x => g (nth x l dflt)) n
  = for_each l g n.
Proof.
  rewrite <- (for_each_map (fun x => nth x l dflt) g).
  now rewrite map_nth_indices.
Qed.

Lemma for_each_draw (row : list cell) n :
  for_each row draw n = (flat_map draw_events row, Done tt).
Proof.
  revert n; induction row as [|c row IH]; intros n; [reflexivity|].
  cbn [for_each]. unfold bind at 1.
  change (draw c n) with (draw_events c, Done tt).
  cbn iota beta. rewrite IH. reflexivity.
Qed.

Lemma for_each_rows (cells : list (list cell)) n :
  for_each cells (fun row => for_each row draw) n
  = (flat_map draw_events (List.concat cells), Done tt).
Proof.
  revert n; induction cells as [|row cells IH]; intros n; [reflexivity|].
  cbn [for_each]. unfold bind at 1.
  rewrite for_each_draw. cbn iota beta. rewrite IH.
  simpl List.concat. now rewrite flat_map_app.
Qed.

(** The events of one pass through the loop body started at position [n]. *)
Lemma frame_run (d : Driver) window prog start cells n :
  let name := ("u_time" ++ nul_str)%string in
  let location := drv_gl_GetUniformLocation d n prog name in
  let elapsed := drv_time_Since d (1 + n) start in
  frame d window prog start cells n =
    ([GlGetUniformLocation prog name location;
      TimeSince start elapsed;
      GlUniform1f location elapsed;
      GlClear (Z.lor gl.COLOR_BUFFER_BIT gl.DEPTH_BUFFER_BIT);
      GlUseProgram prog]
     ++ flat_map draw_events (List.concat cells)
     ++ [GlfwPollEvents; WindowSwapBuffers window],
     Done tt).
Proof.
  intros name location elapsed.
  unfold frame.
  change (gl_Str ("u_time" ++ nul_str)) with (@ret string name).
  unfold bind at 1. unfold ret at 1. cbn [List.length Nat.add app].
  unfold bind at 1. unfold gl_GetUniformLocation at 1, call at 1.
  fold location. cbn [List.length Nat.add app].
  unfold bind at 1. unfold time_Since at 1, call at 1.
  fold elapsed. cbn [List.length Nat.add app].
  unfold bind at 1. unfold gl_Uniform1f at 1, emit at 1.
  unfold bind at 1. unfold gl_Clear at 1, emit at 1.
  unfold bind at 1. unfold gl_UseProgram at 1, emit at 1.
  unfold bind at 1.
  rewrite (for_each_index cells [] (fun row => for_each row draw)).
  rewrite for_each_rows.
  unfold bind, glfw_PollEvents, window_SwapBuffers, emit.
  cbn [List.length Nat.add app].
  reflexivity.
Qed.

Lemma renderLoop_closed (d : Driver) fuel window prog start cells n :
  drv_window_ShouldClose d n window = true ->
  renderLoop d (S fuel) window prog start cells n
  = ([WindowShouldClose window true], Done tt).
Proof.
  intros Hclose.
  cbn [renderLoop]. unfold bind at 1, window_ShouldClose, call.
  rewrite Hclose. reflexivity.
Qed.

Lemma renderLoop_open (d : Driver) fuel window prog start cells n :
  drv_window_ShouldClose d n window = false ->
  let body := fst (frame d window prog start cells (1 + n)%nat) in
  let rest :=
    renderLoop d fuel window prog start cells (List.length body + (1 + n))%nat in
  renderLoop d (S fuel) window prog start cells n
  = (WindowShouldClose window false :: body ++ fst rest, snd rest).
Proof.
  intros Hopen body rest.
  cbn [renderLoop]. unfold bind at 1, window_ShouldClose, call.
  rewrite Hopen. cbn [List.length Nat.add app].
  unfold bind at 1. subst rest body.
  change (S n) with (1 + n)%nat.
  rewrite (frame_run d window prog start cells (1 + n)%nat).
  cbn [fst snd].
  destruct (renderLoop d fuel window prog start cells _) as [e o].
  reflexivity.
Qed.

Lemma forallb_draw_events (P : Event -> bool) (row : list cell) :
  (forall a, P (GlBindVertexArray a) = true) ->
  (forall m f c, P (GlDrawArrays m f c) = true) ->
  forallb P (flat_map draw_events row) = true.
Proof.
  intros Hbind Hdraw.
  induction row as [|c row IH]; [reflexivity|].
  simpl. now rewrite Hbind, Hdraw, IH.
Qed.

(** Every event of a pass through the loop body is a render-loop event
    other than the evaluation of the loop condition. *)
Lemma frame_events_in_loop (d : Driver) window prog start cells n :
  forallb (fun e => render_loop_event e && negb (is_close_check e))
          (fst (frame d window prog start cells n)) = true.
Proof.
  rewrite frame_run. cbn [fst].
  rewrite !forallb_app.
  rewrite forallb_draw_events by reflexivity.
  reflexivity.
Qed.

Lemma forallb_weaken {A : Type} (P Q : A -> bool) (l : list A) :
  (forall a, P a = true -> Q a = true) ->
  forallb P l = true -> forallb Q l = true.
Proof.
  intros HPQ. rewrite !forallb_forall. auto.
Qed.

Lemma renderLoop_events (d : Driver) fuel window prog start cells n :
  forallb render_loop_event
          (fst (renderLoop d fuel window prog start cells n)) = true.
Proof.
  revert n; induction fuel as [|fuel IH]; intros n; [reflexivity|].
  destruct (drv_window_ShouldClose d n window) eqn:Hc.
  - now rewrite renderLoop_closed.
  - rewrite renderLoop_open by assumption. cbn [fst].
    cbn [forallb render_loop_event andb].
    rewrite forallb_app, IH, andb_true_r.
    apply forallb_weaken with (2 := frame_events_in_loop _ _ _ _ _ _).
    intros a Ha. apply andb_prop in Ha. tauto.
Qed.

(** The loop never aborts: it returns or is still running. *)
Lemma renderLoop_outcome (d : Driver) fuel window prog start cells n :
  aborted (snd (renderLoop d fuel window prog start cells n)) = false.
Proof.
  revert n; induction fuel as [|fuel IH]; intros n; [reflexivity|].
  destruct (drv_window_ShouldClose d n window) eqn:Hc.
  - now rewrite renderLoop_closed.
  - rewrite renderLoop_open by assumption. cbn [snd]. apply IH.
Qed.

Lemma first_check_skip (l r : list Event) :
  forallb (fun e => negb (is_close_check e)) l = true ->
  first_check (l ++ r) = first_check r.
Proof.
  induction l as [|e l IH]; [reflexivity|].
  simpl. intros H. apply andb_prop in H. destruct H as [He Hl].
  destruct e; try discriminate He; auto.
Qed.

Lemma after_close_skip (l r : list Event) :
  forallb (fun e => negb (is_close_check e)) l = true ->
  after_close (l ++ r) = after_close r.
Proof.
  induction l as [|e l IH]; [reflexivity|].
  simpl. intros H. apply andb_prop in H. destruct H as [He Hl].
  destruct e; try discriminate He; auto.
Qed.

Lemma frame_no_check (d : Driver) window prog start cells n :
  forallb (fun e => negb (is_close_check e))
          (fst (frame d window prog start cells n)) = true.
Proof.
  apply forallb_weaken with (2 := frame_events_in_loop d _ _ _ _ n).
  intros a Ha. apply andb_prop in Ha. tauto.
Qed.

(** Nothing follows, inside the loop, the check that finds the window
    closed, and the loop has then returned. *)
Lemma renderLoop_after_close (d : Driver) fuel window prog start cells n post :
  after_close (fst (renderLoop d fuel window prog start cells n)) = Some post ->
  post = [] /\ snd (renderLoop d fuel window prog start cells n) = Done tt.
Proof.
  revert n; induction fuel as [|fuel IH]; intros n; [discriminate|].
  destruct (drv_window_ShouldClose d n window) eqn:Hc.
  - rewrite renderLoop_closed by assumption. cbn.
    intros H; inversion H; auto.
  - rewrite renderLoop_open by assumption. cbn [fst snd after_close].
    rewrite after_close_skip by apply frame_no_check.
    apply IH.
Qed.

(** A loop whose first check finds the window closed does nothing else. *)
Lemma renderLoop_first_check_closed (d : Driver) fuel window prog start cells n :
  first_check (fst (renderLoop d fuel window prog start cells n)) = Some true ->
  renderLoop d fuel window prog start cells n
  = ([WindowShouldClose window true], Done tt).
Proof.
  destruct fuel as [|fuel]; [discriminate|].
  destruct (drv_window_ShouldClose d n window) eqn:Hc.
  - now rewrite renderLoop_closed.
  - rewrite renderLoop_open by assumption. cbn. discriminate.
Qed.

Lemma length_draw_events (row : list cell) :
  List.length (flat_map draw_events row) = (2 * List.length row)%nat.
Proof.
  induction row as [|c row IH]; [reflexivity|].
  simpl flat_map. simpl List.length. rewrite IH. lia.
Qed.

Lemma length_frame (d : Driver) window prog start cells n :
  S (List.length (fst (frame d window prog start cells n)))
  = iteration_length cells.
Proof.
  rewrite frame_run. cbn [fst]. unfold iteration_length.
  rewrite !length_app, length_draw_events. simpl. lia.
Qed.

Lemma swaps_of_draw_events (row : list cell) :
  filter is_swap (flat_map draw_events row) = [].
Proof.
  induction row as [|c row IH]; [reflexivity | exact IH].
Qed.

Lemma swaps_of_frame (d : Driver) window prog start cells n :
  filter is_swap (fst (frame d window prog start cells n))
  = [WindowSwapBuffers window].
Proof.
  rewrite frame_run. cbn [fst].
  rewrite !filter_app, swaps_of_draw_events. reflexivity.
Qed.

(** X10.  The loop returns: if the window is found open at the first [k]
    checks and closed at the next one, more than [k] units of fuel let the
    loop return, after exactly [k] frames. *)
Lemma renderLoop_returns_after_k_frames
    (d : Driver) window prog start cells (k : nat) :
  forall (n fuel : nat),
    (k < fuel)%nat ->
    (forall j, (j < k)%nat ->
       drv_window_ShouldClose d (n + j * iteration_length cells) window
       = false) ->
    drv_window_ShouldClose d (n + k * iteration_length cells) window = true ->
    snd (renderLoop d fuel window prog start cells n) = Done tt /\
    List.length
      (filter is_swap (fst (renderLoop d fuel window prog start cells n))) = k.
Proof.
  induction k as [|k IH]; intros n fuel Hfuel Hopen Hclose.
  - destruct fuel as [|fuel]; [lia|].
    rewrite renderLoop_closed; [split; reflexivity|].
    now rewrite Nat.mul_0_l, Nat.add_0_r in Hclose.
  - destruct fuel as [|fuel]; [lia|].
    assert (H0 : drv_window_ShouldClose d n window = false).
    { specialize (Hopen 0%nat). rewrite Nat.mul_0_l, Nat.add_0_r in Hopen.
      apply Hopen. lia. }
    rewrite renderLoop_open by assumption. cbn [fst snd].
    assert (Hpos : (List.length
                      (fst (frame d window prog start cells (1 + n))) + (1 + n)
                    = n + iteration_length cells)%nat).
    { rewrite <- (length_frame d window prog start cells (1 + n)). lia. }
    rewrite Hpos.
    destruct (IH (n + iteration_length cells)%nat fuel) as [Hdone Hcount].
    + lia.
    + intros j Hj. specialize (Hopen (S j)).
      replace (n + iteration_length cells + j * iteration_length cells)%nat
        with (n + S j * iteration_length cells)%nat by (rewrite Nat.mul_succ_l; lia).
      apply Hopen. lia.
    + replace (n + iteration_length cells + k * iteration_length cells)%nat
        with (n + S k * iteration_length cells)%nat by (rewrite Nat.mul_succ_l; lia).
      exact Hclose.
    + split; [exact Hdone|].
      cbn [filter is_swap].
      rewrite filter_app, swaps_of_frame, length_app, Hcount. reflexivity.
Qed.

(** C4 (order of one iteration).  When the loop condition finds the window
    open, the iteration looks up [u_time] by name, reads the elapsed time,
    sets the uniform, clears the colour and depth buffers, binds the
    program, draws every cell row by row, polls events and then swaps the
    buffers; the next evaluation of the condition follows. *)
Theorem frame_sets_uniform_clears_draws_polls_swaps
    (d : Driver) (fuel : nat) (window : Window) (prog start : Z)
    (cells : list (list cell)) (n : nat) :
  drv_window_ShouldClose d n window = false ->
  let name := ("u_time" ++ nul_str)%string in
  let location := drv_gl_GetUniformLocation d (1 + n) prog name in
  let elapsed := drv_time_Since d (2 + n) start in
  let body :=
    [GlGetUniformLocation prog name location;
     TimeSince start elapsed;
     GlUniform1f location elapsed;
     GlClear (Z.lor gl.COLOR_BUFFER_BIT gl.DEPTH_BUFFER_BIT);
     GlUseProgram prog]
    ++ flat_map draw_events (List.concat cells)
    ++ [GlfwPollEvents; WindowSwapBuffers window] in
  let next :=
    renderLoop d fuel window prog start cells (List.length body + (1 + n))%nat in
  frame d window prog start cells (1 + n)%nat = (body, Done tt) /\
  renderLoop d (S fuel) window prog start cells n
  = (WindowShouldClose window false :: body ++ fst next, snd next).
Proof.
  intros Hopen name location elapsed body next.
  assert (Hframe : frame d window prog start cells (1 + n)%nat = (body, Done tt))
    by apply frame_run.
  split; [exact Hframe|].
  rewrite renderLoop_open by assumption.
  rewrite Hframe. reflexivity.
Qed.

Lemma frame_sets_uniform_clears_draws_polls_swaps_witness :
  drv_window_ShouldClose (good_driver 30) 25 7 = false /\
  frame (good_driver 30) 7 3 1000 [[ {| drawable := 1 |} ]] 26%nat
  = ([GlGetUniformLocation 3 ("u_time" ++ nul_str) 0;
      TimeSince 1000 27;
      GlUniform1f 0 27;
      GlClear 16640;
      GlUseProgram 3;
      GlBindVertexArray 1;
      GlDrawArrays gl.LINE_LOOP 0 6;
      GlfwPollEvents;
      WindowSwapBuffers 7], Done tt).
Proof.
  split; [reflexivity|].
  apply (frame_sets_uniform_clears_draws_polls_swaps
           (good_driver 30) 0 7 3 1000 [[ {| drawable := 1 |} ]] 25).
  reflexivity.
Defined.

(** C4 as worded, with the swap before the poll, fails on a grid of one
    cell: the pass ends with the poll followed by the swap. *)
Lemma frame_order_as_claimed_fails :
  ~ claimed_frame_order 7 3 [[ {| drawable := 1 |} ]]
      (fst (frame (good_driver 30) 7 3 1000 [[ {| drawable := 1 |} ]] 26%nat)).
Proof.
  intros (name & location & start & elapsed & mask & H).
  vm_compute in H. discriminate H.
Qed.

(* ================================================================== *)
(** ** Runs of [main] *)
(* ================================================================== *)

Lemma existsb_false_of_forallb {A : Type} (P Q : A -> bool) (l : list A) :
  (forall a, Q a = true -> P a = false) ->
  forallb Q l = true -> existsb P l = false.
Proof.
  intros HQP Hl. induction l as [|a l IH]; [reflexivity|].
  simpl in *. apply andb_prop in Hl. destruct Hl as [Ha Hl].
  now rewrite (HQP a Ha), IH.
Qed.

Lemma first_check_app (l r : list Event) :
  first_check (l ++ r)
  = match first_check l with
    | Some b => Some b
    | None => first_check r
    end.
Proof.
  induction l as [|e l IH]; [reflexivity|].
  destruct e; simpl; auto.
Qed.

Lemma after_close_app (l r : list Event) :
  after_close (l ++ r)
  = match after_close l with
    | Some post => Some (post ++ r)
    | None => after_close r
    end.
Proof.
  induction l as [|e l IH]; [reflexivity|].
  destruct e; simpl; auto.
  destruct res; auto.
Qed.

(** Expose the calls of [main] one after the other. *)
Ltac unfold_main :=
  unfold main, compileShader, gl_GetShaderInfoLog;
  unfold bind, defer, panic_if,
    glfw_Init, glfw_WindowHint, glfw_CreateWindow, window_MakeContextCurrent,
    glfw_Terminate, gl_Init, gl_GetString, log_Println, time_Now, makeCells,
    gl_CreateShader, gl_ShaderSource, gl_CompileShader, gl_GetShaderiv,
    gl_CreateProgram, gl_AttachShader, gl_LinkProgram,
    strings_Repeat, gl_Str, call, emit, ret, panic.

(** Split on the next answer the run depends on. *)
Ltac main_step :=
  cbn [List.length Nat.add app fst snd];
  match goal with
  | |- context [match drv_glfw_Init ?d ?n with _ => _ end] =>
      destruct (drv_glfw_Init d n) eqn:?
  | |- context [drv_glfw_CreateWindow ?d ?n ?w ?h ?t] =>
      destruct (drv_glfw_CreateWindow d n w h t) as [? [?|]] eqn:?
  | |- context [match drv_gl_Init ?d ?n with _ => _ end] =>
      destruct (drv_gl_Init d n) eqn:?
  | |- context [if ?a =? gl.FALSE then _ else _] =>
      destruct (a =? gl.FALSE) eqn:?
  | |- context [if ?a <? 0 then _ else _] =>
      destruct (a <? 0) eqn:?
  | |- context [if has_nul_suffix ?s then _ else _] =>
      destruct (has_nul_suffix s) eqn:?
  | |- context [renderLoop ?d ?f ?w ?p ?s ?c ?n] =>
      let Hloop := fresh "Hloop" in
      let Hev := fresh "Hev" in
      let Hout := fresh "Hout" in
      let Hac := fresh "Hac" in
      let Hfc := fresh "Hfc" in
      pose proof (renderLoop_events d f w p s c n) as Hev;
      pose proof (renderLoop_outcome d f w p s c n) as Hout;
      pose proof (renderLoop_after_close d f w p s c n) as Hac;
      pose proof (renderLoop_first_check_closed d f w p s c n) as Hfc;
      destruct (renderLoop d f w p s c n) as [? [[]|?|?|]] eqn:Hloop;
      cbn [fst snd aborted] in Hev, Hout, Hac, Hfc;
      try discriminate Hout
  end.

Ltac main_cases :=
  unfold_main; repeat main_step; cbn [List.length Nat.add app fst snd].

(** C6.  No run of [main] ever asks for the link status or the info log of
    the program object, neither before nor after [gl.LinkProgram], however
    long the loop runs. *)
Theorem link_status_never_queried (d : Driver) (fuel : nat) :
  forallb (fun e => negb (link_query e)) (fst (main d fuel 0%nat)) = true.
Proof.
  assert (Hloop_events : forall l, forallb render_loop_event l = true ->
            forallb (fun e => negb (link_query e)) l = true).
  { intros l. apply forallb_weaken.
    intros [] Ha; try discriminate Ha; reflexivity. }
  main_cases; try reflexivity.
  all: cbn [forallb link_query negb andb];
    rewrite ?forallb_app, (Hloop_events _ Hev); reflexivity.
Qed.

(** C7.  A run in which GLFW initialises asks for the window exactly once,
    640 by 480, after setting the five hints: not resizable, context
    version 4.1, core profile, forward compatible.  (Otherwise the run is
    the failed [glfw.Init] alone.) *)
Theorem window_requested_after_hints (d : Driver) (fuel : nat) :
  width = 640 /\ height = 480 /\
  ((exists e, fst (main d fuel 0%nat) = [GlfwInit (Some e)]) \/
   (exists res rest,
      fst (main d fuel 0%nat)
      = [GlfwInit None;
         GlfwWindowHint glfw.Resizable glfw.False;
         GlfwWindowHint glfw.ContextVersionMajor 4;
         GlfwWindowHint glfw.ContextVersionMinor 1;
         GlfwWindowHint glfw.OpenGLProfile glfw.OpenGLCoreProfile;
         GlfwWindowHint glfw.OpenGLForwardCompatible glfw.True;
         GlfwCreateWindow 640 480 "Conway's Game of Life" res] ++ rest /\
      forallb (fun e => negb (window_setup_event e)) rest = true)).
Proof.
  assert (Hloop_events : forall l, forallb render_loop_event l = true ->
            forallb (fun e => negb (window_setup_event e)) l = true).
  { intros l. apply forallb_weaken.
    intros [] Ha; try discriminate Ha; reflexivity. }
  split; [reflexivity|]. split; [reflexivity|].
  main_cases; [left; eexists; reflexivity | right ..].
  all: eexists; eexists; split; [reflexivity|].
  all: try reflexivity.
  all: cbn [forallb window_setup_event negb andb];
    rewrite ?forallb_app, (Hloop_events _ Hev); reflexivity.
Qed.

Ltac rewrite_status :=
  repeat match goal with
         | H : (_ =? gl.FALSE) = _ |- _ => progress rewrite !H
         end.

Ltac rewrite_status_in Hyp :=
  repeat match goal with
         | H : (_ =? gl.FALSE) = _ |- _ => progress rewrite !H in Hyp
         end.

Lemma loop_has_no_setup_failure (l : list Event) :
  forallb render_loop_event l = true -> existsb setup_failure l = false.
Proof.
  apply existsb_false_of_forallb.
  intros [] Ha; try discriminate Ha; reflexivity.
Qed.

(** C3.  If any setup call of a run fails -- [glfw.Init], [glfw.CreateWindow]
    or [gl.Init] returns an error, or a compile status is [FALSE] -- the
    process is aborted, no call of the render loop has been made, the failed
    call is the only one (nothing is tried again) and only the reading of
    the shader log and the deferred [glfw.Terminate] come after it.  The
    panic value is the error the library returned or, for a shader, the
    error built from the source and the log read back. *)
Theorem setup_failure_aborts_before_loop (d : Driver) (fuel : nat) :
  existsb setup_failure (fst (main d fuel 0%nat)) = true ->
  aborted (snd (main d fuel 0%nat)) = true /\
  forallb (fun e => negb (render_loop_event e)) (fst (main d fuel 0%nat))
    = true /\
  List.length (filter setup_failure (fst (main d fuel 0%nat))) = 1%nat /\
  forallb failure_epilogue (after_failure (fst (main d fuel 0%nat))) = true /\
  (forall e, In (GlfwInit (Some e)) (fst (main d fuel 0%nat)) ->
             snd (main d fuel 0%nat) = Panic e) /\
  (forall w h title win e,
      In (GlfwCreateWindow w h title (win, Some e)) (fst (main d fuel 0%nat)) ->
      snd (main d fuel 0%nat) = Panic e) /\
  (forall e, In (GlInit (Some e)) (fst (main d fuel 0%nat)) ->
             snd (main d fuel 0%nat) = Panic e) /\
  (forall shader bufSize buf written,
      In (GlGetShaderInfoLog shader bufSize buf written)
         (fst (main d fuel 0%nat)) ->
      exists source,
        (source = vertexShaderSource \/ source = fragmentShaderSource) /\
        snd (main d fuel 0%nat)
        = Panic (fmt_Errorf_failed_to_compile
                   source (overwrite bufSize written buf))).
Proof.
  main_cases; intros Hfail.
  (* the runs that reach the loop have no failed setup call *)
  all: try (exfalso;
            cbn [existsb setup_failure orb] in Hfail;
            rewrite_status_in Hfail;
            rewrite ?existsb_app, (loop_has_no_setup_failure _ Hev) in Hfail;
            discriminate Hfail).
  all: split; [reflexivity|].
  all: split; [reflexivity|].
  all: split; [cbn [filter setup_failure]; rewrite_status; reflexivity|].
  all: split; [cbn [after_failure setup_failure]; rewrite_status;
               reflexivity|].
  all: repeat split; intros; cbn [In] in *; intuition (try discriminate).
  all: match goal with
       | H : @eq Event _ _ |- _ => inversion H; subst
       end.
  all: try reflexivity.
  all: eexists; split; [|reflexivity]; auto.
Qed.

Lemma setup_failure_aborts_before_loop_witness :
  existsb setup_failure (fst (main rejecting_driver 3 0%nat)) = true /\
  aborted (snd (main rejecting_driver 3 0%nat)) = true /\
  forallb (fun e => negb (render_loop_event e))
          (fst (main rejecting_driver 3 0%nat)) = true.
Proof.
  split; [reflexivity|].
  destruct (setup_failure_aborts_before_loop rejecting_driver 3 eq_refl)
    as (Habort & Hnoloop & _).
  split; assumption.
Defined.

(** C5.  A check of the loop condition that finds the window closed ends the
    loop on the spot: the loop makes no further call and returns.  In a run
    of [main] only the deferred [glfw.Terminate] follows that check and
    [main] returns; when the first check already finds the window closed, no
    draw call and no buffer swap is made at all. *)
Theorem close_signal_ends_loop (d : Driver) (fuel : nat) :
  (forall window prog start cells n,
      drv_window_ShouldClose d n window = true ->
      renderLoop d (S fuel) window prog start cells n
      = ([WindowShouldClose window true], Done tt)) /\
  (forall post,
      after_close (fst (main d fuel 0%nat)) = Some post ->
      post = [GlfwTerminate] /\ snd (main d fuel 0%nat) = Done tt) /\
  (first_check (fst (main d fuel 0%nat)) = Some true ->
   filter is_draw_call (fst (main d fuel 0%nat)) = [] /\
   filter is_swap (fst (main d fuel 0%nat)) = [] /\
   snd (main d fuel 0%nat) = Done tt).
Proof.
  split; [intros; now apply renderLoop_closed|].
  split.
  - main_cases; intros post H; cbn [after_close] in H; try discriminate H.
    + rewrite after_close_app in H.
      destruct (after_close l) as [p|] eqn:Hp; [|discriminate H].
      destruct (Hac p eq_refl) as [-> _].
      inversion H. auto.
    + destruct (Hac post H) as [_ Hrun]. discriminate Hrun.
  - main_cases; intros H; cbn [first_check] in H; try discriminate H.
    + rewrite first_check_app in H.
      destruct (first_check l) as [b|] eqn:Hb; [|discriminate H].
      inversion H; subst b.
      specialize (Hfc eq_refl). inversion Hfc; subst l.
      repeat split.
    + specialize (Hfc H). discriminate Hfc.
Qed.

Lemma close_signal_ends_loop_witness :
  first_check (fst (main (good_driver 0) 5 0%nat)) = Some true /\
  filter is_draw_call (fst (main (good_driver 0) 5 0%nat)) = [] /\
  filter is_swap (fst (main (good_driver 0) 5 0%nat)) = [] /\
  snd (main (good_driver 0) 5 0%nat) = Done tt.
Proof.
  split; [reflexivity|].
  apply (proj2 (proj2 (close_signal_ends_loop (good_driver 0) 5))).
  reflexivity.
Defined.

(* ================================================================== *)
(** ** More on [compileShader] *)
(* ================================================================== *)

(** X1.  When the compile status read back is not [FALSE], [compileShader]
    makes four calls -- create, source, compile, status -- and returns the
    handle that [gl.CreateShader] gave with a nil error; the info log is not
    asked for. *)
Theorem compileShader_success_returns_handle
    (d : Driver) (source : string) (shaderType : Z) (n : nat) :
  let shader := drv_gl_CreateShader d n shaderType in
  let status := drv_gl_GetShaderiv d (3 + n) shader gl.COMPILE_STATUS in
  status <> gl.FALSE ->
  compileShader d source shaderType n =
    ([GlCreateShader shaderType shader;
      GlShaderSource shader 1 [source];
      GlCompileShader shader;
      GlGetShaderiv shader gl.COMPILE_STATUS status],
     Done (shader, None)).
Proof.
  intros shader status Hstatus.
  unfold compileShader, bind, gl_CreateShader, gl_ShaderSource,
    gl_CompileShader, gl_GetShaderiv, call, emit, ret.
  cbn [List.length Nat.add app].
  fold shader. change (S (S (S n))) with (3 + n)%nat. fold status.
  destruct (status =? gl.FALSE) eqn:Heq.
  - apply Z.eqb_eq in Heq. contradiction.
  - reflexivity.
Qed.

Lemma compileShader_success_returns_handle_witness :
  drv_gl_GetShaderiv (good_driver 0) 3 0 gl.COMPILE_STATUS <> gl.FALSE /\
  compileShader (good_driver 0) "void main() {}" gl.FRAGMENT_SHADER 0%nat =
    ([GlCreateShader gl.FRAGMENT_SHADER 0;
      GlShaderSource 0 1 ["void main() {}"%string];
      GlCompileShader 0;
      GlGetShaderiv 0 gl.COMPILE_STATUS 1],
     Done (0, None)).
Proof.
  split; [discriminate|].
  apply (compileShader_success_returns_handle
           (good_driver 0) "void main() {}" gl.FRAGMENT_SHADER 0%nat).
  discriminate.
Defined.

(** X2.  However the driver answers, [compileShader] returns a nil error
    exactly when the status was not [FALSE], and then the handle is the one
    [gl.CreateShader] gave; an error comes with handle 0; and the function
    can only stop the process when the status was [FALSE]. *)
Theorem compileShader_outcome
    (d : Driver) (source : string) (shaderType : Z) (n : nat) :
  let shader := drv_gl_CreateShader d n shaderType in
  let status := drv_gl_GetShaderiv d (3 + n) shader gl.COMPILE_STATUS in
  match snd (compileShader d source shaderType n) with
  | Done (h, None) => status <> gl.FALSE /\ h = shader
  | Done (h, Some _) => status = gl.FALSE /\ h = 0
  | Panic _ | Fatal _ => status = gl.FALSE
  | Running => Logic.False
  end.
Proof.
  intros shader status.
  unfold compileShader, gl_GetShaderInfoLog.
  unfold bind, gl_CreateShader, gl_ShaderSource,
    gl_CompileShader, gl_GetShaderiv, strings_Repeat, gl_Str,
    call, emit, ret, panic.
  cbn [List.length Nat.add app].
  fold shader. change (S (S (S n))) with (3 + n)%nat. fold status.
  destruct (status =? gl.FALSE) eqn:Heq.
  - apply Z.eqb_eq in Heq.
    destruct (int32 _ <? 0); [exact Heq|].
    destruct (has_nul_suffix _); cbn; [split; auto | exact Heq].
  - apply Z.eqb_neq in Heq. cbn. split; auto.
Qed.

(** X3.  When the status is [FALSE] and [int32(logLength+1)] is not
    positive -- the driver reports [2^31-1], where the sum wraps, or a
    negative length -- [compileShader] stops the process after the length
    query: [gl.GetShaderInfoLog] is not called and no error is returned. *)
Theorem compileShader_log_length_out_of_range
    (d : Driver) (source : string) (shaderType : Z) (n : nat) :
  let shader := drv_gl_CreateShader d n shaderType in
  let status := drv_gl_GetShaderiv d (3 + n) shader gl.COMPILE_STATUS in
  let logLength := drv_gl_GetShaderiv d (4 + n) shader gl.INFO_LOG_LENGTH in
  status = gl.FALSE ->
  int32 (logLength + 1) <= 0 ->
  fst (compileShader d source shaderType n) =
    [GlCreateShader shaderType shader;
     GlShaderSource shader 1 [source];
     GlCompileShader shader;
     GlGetShaderiv shader gl.COMPILE_STATUS gl.FALSE;
     GlGetShaderiv shader gl.INFO_LOG_LENGTH logLength] /\
  aborted (snd (compileShader d source shaderType n)) = true /\
  (int32 (logLength + 1) < 0 ->
   snd (compileShader d source shaderType n)
   = Panic "strings: negative Repeat count").
Proof.
  intros shader status logLength Hstatus Hrange.
  unfold compileShader, gl_GetShaderInfoLog.
  unfold bind, gl_CreateShader, gl_ShaderSource,
    gl_CompileShader, gl_GetShaderiv, strings_Repeat, gl_Str,
    call, emit, ret, panic.
  cbn [List.length Nat.add app].
  fold shader. change (S (S (S n))) with (3 + n)%nat. fold status.
  rewrite Hstatus. cbn [Z.eqb gl.FALSE].
  cbn [List.length Nat.add app].
  change (S (S (S (S n)))) with (4 + n)%nat. fold logLength.
  destruct (int32 (logLength + 1) <? 0) eqn:Hneg.
  - cbn. repeat split.
  - apply Z.ltb_ge in Hneg.
    replace (int32 (logLength + 1)) with 0 by lia.
    cbn. repeat split. intros Hlt. lia.
Qed.

Lemma compileShader_log_length_out_of_range_witness :
  drv_gl_GetShaderiv overflowing_driver 3 1 gl.COMPILE_STATUS = gl.FALSE /\
  int32 (drv_gl_GetShaderiv overflowing_driver 4 1 gl.INFO_LOG_LENGTH + 1)
    <= 0 /\
  aborted (snd (compileShader overflowing_driver "x" gl.VERTEX_SHADER 0%nat))
    = true.
Proof.
  split; [reflexivity|]. split; [vm_compute; discriminate|].
  apply (compileShader_log_length_out_of_range
           overflowing_driver "x" gl.VERTEX_SHADER 0%nat).
  - reflexivity.
  - vm_compute; discriminate.
Defined.

(* ================================================================== *)
(** ** More on runs of [main] *)
(* ================================================================== *)

Lemma filter_nil_of_forallb {A : Type} (P Q : A -> bool) (l : list A) :
  (forall a, Q a = true -> P a = false) ->
  forallb Q l = true -> filter P l = [].
Proof.
  intros HQP Hl. induction l as [|a l IH]; [reflexivity|].
  simpl in *. apply andb_prop in Hl. destruct Hl as [Ha Hl].
  now rewrite (HQP a Ha), IH.
Qed.

(** A loop that has returned ends with the check that found the window
    closed. *)
Lemma renderLoop_done_ends_with_close
    (d : Driver) fuel window prog start cells n :
  snd (renderLoop d fuel window prog start cells n) = Done tt ->
  exists frames,
    fst (renderLoop d fuel window prog start cells n)
    = frames ++ [WindowShouldClose window true].
Proof.
  revert n; induction fuel as [|fuel IH]; intros n; [discriminate|].
  destruct (drv_window_ShouldClose d n window) eqn:Hc.
  - rewrite renderLoop_closed by assumption. intros _. now exists [].
  - rewrite renderLoop_open by assumption. cbn [fst snd]. intros Hdone.
    destruct (IH _ Hdone) as [frames Hframes]. rewrite Hframes.
    eexists (_ :: _ ++ frames).
    rewrite <- app_comm_cons, <- app_assoc. reflexivity.
Qed.

(** Bring a fact about the loop to the run recorded in the context. *)
Ltac loop_fact lemma H :=
  match goal with
  | Hloop : renderLoop ?d ?f ?w ?p ?s ?c ?n = _ |- _ =>
      pose proof (lemma d f w p s c n) as H;
      rewrite Hloop in H; cbn [fst snd] in H
  end.

(** X4.  A run of [main] without a failed setup call starts with the same
    twenty-five calls: after the window, the loader and the log line, the
    vertex and then the fragment shader are compiled, one program is
    created, the two shaders are attached to it in that order, it is linked,
    the clock is read and the cells are made.  Only calls of the render loop
    and the deferred [glfw.Terminate] follow. *)
Theorem successful_setup_links_compiled_shaders (d : Driver) (fuel : nat) :
  existsb setup_failure (fst (main d fuel 0%nat)) = false ->
  exists window version vertexShader vstatus fragmentShader fstatus
         prog start cells rest,
    fst (main d fuel 0%nat)
    = [GlfwInit None;
       GlfwWindowHint glfw.Resizable glfw.False;
       GlfwWindowHint glfw.ContextVersionMajor 4;
       GlfwWindowHint glfw.ContextVersionMinor 1;
       GlfwWindowHint glfw.OpenGLProfile glfw.OpenGLCoreProfile;
       GlfwWindowHint glfw.OpenGLForwardCompatible glfw.True;
       GlfwCreateWindow width height "Conway's Game of Life" (window, None);
       WindowMakeContextCurrent window;
       GlInit None;
       GlGetString gl.VERSION version;
       LogPrintln ["OpenGL Version"%string; version];
       GlCreateShader gl.VERTEX_SHADER vertexShader;
       GlShaderSource vertexShader 1 [vertexShaderSource];
       GlCompileShader vertexShader;
       GlGetShaderiv vertexShader gl.COMPILE_STATUS vstatus;
       GlCreateShader gl.FRAGMENT_SHADER fragmentShader;
       GlShaderSource fragmentShader 1 [fragmentShaderSource];
       GlCompileShader fragmentShader;
       GlGetShaderiv fragmentShader gl.COMPILE_STATUS fstatus;
       GlCreateProgram prog;
       GlAttachShader prog vertexShader;
       GlAttachShader prog fragmentShader;
       GlLinkProgram prog;
       TimeNow start;
       MakeCells cells] ++ rest /\
    vstatus <> gl.FALSE /\
    fstatus <> gl.FALSE /\
    forallb (fun e => render_loop_event e || is_terminate e) rest = true.
Proof.
  assert (Hloop_events : forall l, forallb render_loop_event l = true ->
            forallb (fun e => render_loop_event e || is_terminate e) l = true).
  { intros l. apply forallb_weaken. intros a Ha. now rewrite Ha. }
  main_cases; intros Hok.
  all: try (exfalso; cbn [existsb setup_failure orb] in Hok;
            rewrite_status_in Hok; cbn in Hok; discriminate Hok).
  all: do 10 eexists; split; [reflexivity|].
  all: split; [apply Z.eqb_neq; assumption|].
  all: split; [apply Z.eqb_neq; assumption|].
  all: rewrite ?forallb_app, (Hloop_events _ Hev); reflexivity.
Qed.

Lemma successful_setup_links_compiled_shaders_witness :
  existsb setup_failure (fst (main (good_driver 0) 2 0%nat)) = false /\
  exists rest,
    firstn 4 (skipn 19 (fst (main (good_driver 0) 2 0%nat)))
    = [GlCreateProgram 3; GlAttachShader 3 11; GlAttachShader 3 15;
       GlLinkProgram 3] /\
    skipn 25 (fst (main (good_driver 0) 2 0%nat)) = rest /\
    forallb (fun e => render_loop_event e || is_terminate e) rest = true.
Proof.
  split; [reflexivity|].
  destruct (successful_setup_links_compiled_shaders (good_driver 0) 2 eq_refl)
    as (w & v & vs & vst & fs & fst' & p & s & c & rest & Htr & _ & _ & Hrest).
  exists rest. rewrite Htr. cbn [skipn firstn app].
  repeat split; try assumption.
  vm_compute in Htr. inversion Htr. reflexivity.
Defined.

Lemma ends_with_close_cons (a : Event) (l : list Event) :
  (exists pre window,
      l = pre ++ [WindowShouldClose window true; GlfwTerminate]) ->
  exists pre window,
    a :: l = pre ++ [WindowShouldClose window true; GlfwTerminate].
Proof.
  intros (pre & window & ->). now exists (a :: pre), window.
Qed.

(** X5.  [main] returns normally only by way of the loop condition: a run
    that has returned ends with the check that found the window closed,
    followed by the deferred [glfw.Terminate], and no setup call failed in
    it. *)
Theorem main_returns_only_after_close (d : Driver) (fuel : nat) :
  snd (main d fuel 0%nat) = Done tt ->
  (exists pre window,
      fst (main d fuel 0%nat)
      = pre ++ [WindowShouldClose window true; GlfwTerminate]) /\
  existsb setup_failure (fst (main d fuel 0%nat)) = false.
Proof.
  main_cases; intros Hret; try discriminate Hret.
  loop_fact renderLoop_done_ends_with_close Hdone.
  destruct (Hdone eq_refl) as [frames ->].
  split.
  - repeat apply ends_with_close_cons.
    eexists frames, _. rewrite <- app_assoc. reflexivity.
  - cbn [existsb setup_failure orb]. rewrite_status.
    rewrite existsb_app, (loop_has_no_setup_failure _ Hev). reflexivity.
Qed.

Lemma main_returns_only_after_close_witness :
  snd (main (good_driver 30) 3 0%nat) = Done tt /\
  existsb setup_failure (fst (main (good_driver 30) 3 0%nat)) = false.
Proof.
  split; [reflexivity|].
  apply (main_returns_only_after_close (good_driver 30) 3).
  reflexivity.
Defined.

Lemma ends_with_terminate_cons (a : Event) (l : list Event) :
  is_terminate a = false ->
  (exists pre, l = pre ++ [GlfwTerminate] /\ filter is_terminate pre = []) ->
  exists pre, a :: l = pre ++ [GlfwTerminate] /\ filter is_terminate pre = [].
Proof.
  intros Ha (pre & -> & Hpre). exists (a :: pre).
  split; [reflexivity|]. simpl. now rewrite Ha.
Qed.

Lemma loop_has_no_terminate (l : list Event) :
  forallb render_loop_event l = true -> filter is_terminate l = [].
Proof.
  apply filter_nil_of_forallb.
  intros [] Ha; try discriminate Ha; reflexivity.
Qed.

(** X6.  [glfw.Terminate] is deferred only once the window exists.  In a
    run where the context was made current and [main] returned or panicked
    -- in [panic(err)], in [strings.Repeat] or in [gl.Str] -- it is called
    exactly once, as the last call; in every other run -- a failed
    [glfw.Init] or [glfw.CreateWindow], a loop still running -- it is not
    called. *)
Theorem terminate_deferred_after_window (d : Driver) (fuel : nat) :
  if existsb is_make_current (fst (main d fuel 0%nat))
     && unwinds (snd (main d fuel 0%nat))
  then exists pre,
         fst (main d fuel 0%nat) = pre ++ [GlfwTerminate] /\
         filter is_terminate pre = []
  else filter is_terminate (fst (main d fuel 0%nat)) = [].
Proof.
  main_cases; cbn [existsb is_make_current orb andb unwinds].
  all: try reflexivity.
  all: repeat (apply ends_with_terminate_cons; [reflexivity|]).
  all: try (exists []; split; reflexivity).
  - exists l. split; [reflexivity | now apply loop_has_no_terminate].
  - cbn [filter is_terminate]. now apply loop_has_no_terminate.
Qed.

Lemma terminate_deferred_after_window_witness :
  snd (main negative_length_driver 1 0%nat)
  = Panic "str argument missing null terminator: " /\
  exists pre,
    fst (main negative_length_driver 1 0%nat) = pre ++ [GlfwTerminate] /\
    filter is_terminate pre = [].
Proof.
  split; [reflexivity|].
  exact (terminate_deferred_after_window negative_length_driver 1).
Defined.

Lemma until_first_uniform_app (Q : Event -> bool) (l r : list Event) :
  forallb Q (until_first_uniform l) = true ->
  forallb Q r = true ->
  forallb Q (until_first_uniform (l ++ r)) = true.
Proof.
  intros Hl Hr. induction l as [|a l IH].
  - simpl. induction r as [|b r IHr]; [reflexivity|].
    simpl in Hr. apply andb_prop in Hr. destruct Hr as [Hb Hr].
    destruct b; simpl; rewrite ?Hb; auto.
  - destruct a; simpl in *; try reflexivity;
      apply andb_prop in Hl; destruct Hl as [Ha Hl];
      rewrite Ha; auto.
Qed.

Lemma renderLoop_uniform_first (d : Driver) fuel window prog start cells n :
  forallb (fun e => negb (is_use_program e))
          (until_first_uniform
             (fst (renderLoop d fuel window prog start cells n))) = true.
Proof.
  destruct fuel as [|fuel]; [reflexivity|].
  destruct (drv_window_ShouldClose d n window) eqn:Hc.
  - now rewrite renderLoop_closed.
  - rewrite renderLoop_open by assumption. rewrite frame_run. reflexivity.
Qed.

(** X9.  No run of [main] calls [gl.UseProgram] before its first
    [gl.Uniform1f]: in the first pass through the loop body the uniform is
    set at a time when the program has not been made current yet. *)
Theorem uniform_set_before_program_in_use (d : Driver) (fuel : nat) :
  forallb (fun e => negb (is_use_program e))
          (until_first_uniform (fst (main d fuel 0%nat))) = true.
Proof.
  main_cases; try reflexivity.
  all: loop_fact renderLoop_uniform_first Hfirst.
  all: cbn [until_first_uniform forallb is_use_program negb andb].
  - now apply until_first_uniform_app.
  - exact Hfirst.
Qed.

(* ================================================================== *)
(** ** Counting the calls of the loop *)
(* ================================================================== *)

Lemma count_app (P : Event -> bool) (l r : list Event) :
  count P (l ++ r) = (count P l + count P r)%nat.
Proof.
  unfold count. now rewrite filter_app, length_app.
Qed.

Lemma count_cons (P : Event -> bool) (a : Event) (l : list Event) :
  count P (a :: l) = ((if P a then 1 else 0) + count P l)%nat.
Proof.
  unfold count. simpl. now destruct (P a).
Qed.

Lemma count_draw_events (P : Event -> bool) (b1 b2 : bool) (row : list cell) :
  (forall a, P (GlBindVertexArray a) = b1) ->
  (forall m f c, P (GlDrawArrays m f c) = b2) ->
  count P (flat_map draw_events row)
  = (List.length row * ((if b1 then 1 else 0) + (if b2 then 1 else 0)))%nat.
Proof.
  intros Hbind Hdraw.
  induction row as [|c row IH]; [reflexivity|].
  simpl flat_map. rewrite !count_cons, Hbind, Hdraw, IH.
  simpl List.length. lia.
Qed.

(** What one pass through the loop body adds to each count. *)
Lemma frame_counts (d : Driver) window prog start cells n :
  let body := fst (frame d window prog start cells n) in
  count is_swap body = 1%nat /\
  count is_open_check body = 0%nat /\
  count is_close_check body = 0%nat /\
  count is_uniform_lookup body = 1%nat /\
  count is_uniform body = 1%nat /\
  count is_clear body = 1%nat /\
  count is_use_program body = 1%nat /\
  count is_poll body = 1%nat /\
  count is_bind_vertex_array body = List.length (List.concat cells) /\
  count is_draw_call body = List.length (List.concat cells).
Proof.
  intros body. subst body. rewrite frame_run. cbn [fst].
  repeat split; rewrite !count_app;
    match goal with
    | |- context [count ?P (flat_map draw_events _)] =>
        rewrite (count_draw_events P (P (GlBindVertexArray 0))
                   (P (GlDrawArrays 0 0 0))) by reflexivity
    end; cbn; lia.
Qed.

(** X7.  In every run of the render loop the calls keep step with the
    frames presented: per [SwapBuffers] there is one check that found the
    window open, one lookup of the uniform, one [Uniform1f], one [Clear],
    one [UseProgram] and one [PollEvents], and one [BindVertexArray] and one
    [DrawArrays] per cell of the grid; the number of checks exceeds the
    number of frames by one exactly when the loop has returned. *)
Theorem renderLoop_calls_per_frame
    (d : Driver) (fuel : nat) (window : Window) (prog start : Z)
    (cells : list (list cell)) (n : nat) :
  let tr := fst (renderLoop d fuel window prog start cells n) in
  let out := snd (renderLoop d fuel window prog start cells n) in
  let frames := count is_swap tr in
  count is_open_check tr = frames /\
  count is_uniform_lookup tr = frames /\
  count is_uniform tr = frames /\
  count is_clear tr = frames /\
  count is_use_program tr = frames /\
  count is_poll tr = frames /\
  count is_bind_vertex_array tr
  = (frames * List.length (List.concat cells))%nat /\
  count is_draw_call tr = (frames * List.length (List.concat cells))%nat /\
  count is_close_check tr = (frames + if unwinds out then 1 else 0)%nat.
Proof.
  cbv zeta.
  revert n; induction fuel as [|fuel IH]; intros n.
  - cbn. repeat split.
  - destruct (drv_window_ShouldClose d n window) eqn:Hc.
    + rewrite renderLoop_closed by assumption. cbn. repeat split.
    + rewrite renderLoop_open by assumption. cbn [fst snd].
      destruct (frame_counts d window prog start cells (1 + n))
        as (B1 & B2 & B3 & B4 & B5 & B6 & B7 & B8 & B9 & B10).
      destruct (IH (List.length
                      (fst (frame d window prog start cells (1 + n)))
                    + (1 + n))%nat)
        as (H1 & H2 & H3 & H4 & H5 & H6 & H7 & H8 & H9).
      rewrite !count_cons, !count_app.
      rewrite B1, B2, B3, B4, B5, B6, B7, B8, B9, B10.
      rewrite H1, H2, H3, H4, H5, H6, H7, H8, H9.
      cbn [is_open_check is_uniform_lookup is_uniform is_clear
           is_use_program is_poll is_bind_vertex_array is_draw_call
           is_close_check is_swap].
      repeat split; lia.
Qed.

Lemma loop_counts_zero (P : Event -> bool) (l : list Event) :
  (forall a, render_loop_event a = true -> P a = false) ->
  forallb render_loop_event l = true -> count P l = 0%nat.
Proof.
  intros HP Hl. unfold count.
  now rewrite (filter_nil_of_forallb P render_loop_event l HP Hl).
Qed.

Lemma renderLoop_draws_and_lookups
    (d : Driver) fuel window prog start cells n :
  count is_draw_call (fst (renderLoop d fuel window prog start cells n))
  = (count is_swap (fst (renderLoop d fuel window prog start cells n))
     * List.length (List.concat cells))%nat /\
  count is_uniform_lookup (fst (renderLoop d fuel window prog start cells n))
  = count is_swap (fst (renderLoop d fuel window prog start cells n)).
Proof.
  revert n; induction fuel as [|fuel IH]; intros n; [split; reflexivity|].
  destruct (drv_window_ShouldClose d n window) eqn:Hc.
  - rewrite renderLoop_closed by assumption. split; reflexivity.
  - rewrite renderLoop_open by assumption. cbn [fst].
    destruct (frame_counts d window prog start cells (1 + n))
      as (Bswap & _ & _ & Blookup & _ & _ & _ & _ & _ & Bdraw).
    destruct (IH (List.length
                    (fst (frame d window prog start cells (1 + n)))
                  + (1 + n))%nat) as [Hdraw Hlookup].
    rewrite !count_cons, !count_app, Bswap, Blookup, Bdraw, Hdraw, Hlookup.
    cbn [is_draw_call is_swap is_uniform_lookup]. split; lia.
Qed.

(** X8.  In every run of [main] the number of [DrawArrays] calls is the
    number of frames presented times the number of cells that [makeCells]
    returned, and the uniform location is looked up once per frame. *)
Theorem main_draws_every_cell_each_frame (d : Driver) (fuel : nat) :
  count is_draw_call (fst (main d fuel 0%nat))
  = (count is_swap (fst (main d fuel 0%nat))
     * List.length (List.concat (cells_of (fst (main d fuel 0%nat)))))%nat /\
  count is_uniform_lookup (fst (main d fuel 0%nat))
  = count is_swap (fst (main d fuel 0%nat)).
Proof.
  main_cases; try (split; reflexivity).
  all: loop_fact renderLoop_draws_and_lookups Hcounts.
  all: destruct Hcounts as [Hdraw Hlookup].
  all: rewrite !count_cons; cbn [cells_of is_draw_call is_swap
                                 is_uniform_lookup Nat.add].
  all: rewrite ?count_app, Hdraw, Hlookup; cbn; split; lia.
Qed.

Lemma renderLoop_returns_after_k_frames_witness :
  (1 < 5)%nat /\
  drv_window_ShouldClose (good_driver 30) (25 + 1 * iteration_length []) 7
  = true /\
  snd (renderLoop (good_driver 30) 5 7 3 1000 [] 25%nat) = Done tt /\
  List.length
    (filter is_swap (fst (renderLoop (good_driver 30) 5 7 3 1000 [] 25%nat)))
  = 1%nat.
Proof.
  split; [lia|]. split; [reflexivity|].
  apply (renderLoop_returns_after_k_frames (good_driver 30) 7 3 1000 [] 1 25 5).
  - lia.
  - intros j Hj. assert (Hj0 : j = 0%nat) by lia. subst j. reflexivity.
  - reflexivity.
Defined.
